(** * Nyx: the boot stub [Source/Kernel/boot.cpp]

    The whole program is one function, [main], which prints a greeting with
    [printf] and then drives an embedded Python runtime through
    [Py_Initialize], two [PyRun_SimpleString] calls and [Py_Finalize] before
    returning 0.

    [main] talks to two external libraries and computes nothing itself, so it
    is embedded as an interaction tree: every library call is an event whose
    answer is chosen by the environment.  Properties of the program alone are
    stated over the traces of that tree and over its interpretation against
    libraries whose calls may or may not come back.  What finally reaches
    standard output is not decided by [main]: it depends on the buffering of
    the C stream, on the runtime's own buffering and on whether the runtime
    lets the process live; section 3 has a model of the process in which this
    can be computed. *)

From Stdlib Require Import String Ascii ZArith List Bool Lia.
From ITree Require Import ITree ITreeFacts Events.State Events.StateFacts.
From ITree Require Import Axioms Interp.Traces Props.Finite.
Import ITreeNotations ListNotations Monads.

Local Open Scope itree_scope.
Local Open Scope list_scope.
Local Open Scope string_scope.
Local Open Scope Z_scope.

Set Implicit Arguments.

(* ===================================================================== *)
(** * 1. The program *)
(* ===================================================================== *)

(** ** Library interface

    One event per external function the translation unit calls, grouped by
    the header that declares it.  The index is the C return type: [int] is
    read as [Z] (no arithmetic is ever done on it), [void] as [unit]. *)

(** [<stdio.h>] *)
Variant stdioE : Type -> Type :=
| printf (format : string) : stdioE Z.

(** [<Python.h>] *)
Variant pythonE : Type -> Type :=
| Py_Initialize : pythonE unit
| PyRun_SimpleString (command : string) : pythonE Z
| Py_Finalize : pythonE unit.

Definition libE : Type -> Type := stdioE +' pythonE.

(** The escape [\n] of a C string literal: one line-feed character. *)
Definition LF : string := String "010"%char EmptyString.

(** ** [int main()]

    Statement for statement the body of [main]; the value of every call is
    discarded, as in the source. *)
Definition main : itree libE Z :=
  trigger (printf ("Hello from Nyx OS!" ++ LF)) ;;
  trigger Py_Initialize ;;
  trigger (PyRun_SimpleString "print('Hello from Embedded Python')") ;;
  trigger (PyRun_SimpleString ("import sys" ++ LF ++ "print(sys.version)")) ;;
  trigger Py_Finalize ;;
  Ret 0.

(** [main] is declared without parameters: whatever the C start-up code
    received from the operating system, it calls the same [main]. *)
Record input : Type := {
  argv : list string;
  environ : list (string * string);
  stdin : string }.

Definition entry (i : input) : itree libE Z := main.

Definition EXIT_SUCCESS : Z := 0.

(* ===================================================================== *)
(** * 2. Calls and traces *)
(* ===================================================================== *)

(** A call as an observer sees it: the function and its arguments, without
    the answer. *)
Variant call : Type :=
| call_printf (format : string)
| call_Py_Initialize
| call_PyRun_SimpleString (command : string)
| call_Py_Finalize.

Definition call_of_stdio {X} (e : stdioE X) : call :=
  match e with
  | printf format => call_printf format
  end.

Definition call_of_python {X} (e : pythonE X) : call :=
  match e with
  | Py_Initialize => call_Py_Initialize
  | PyRun_SimpleString command => call_PyRun_SimpleString command
  | Py_Finalize => call_Py_Finalize
  end.

Definition call_of {X} (e : libE X) : call :=
  match e with
  | inl1 e' => call_of_stdio e'
  | inr1 e' => call_of_python e'
  end.

(** Calls into the embedded runtime, as opposed to the C library. *)
Definition is_python (c : call) : bool :=
  match c with
  | call_printf _ => false
  | _ => true
  end.

Definition is_run (c : call) : bool :=
  match c with
  | call_PyRun_SimpleString _ => true
  | _ => false
  end.

(** The calls of a trace, in the order they were issued.  A trace may stop
    at a call that was issued and has not been answered ([TEventEnd]). *)
Fixpoint calls {R} (tr : @trace libE R) : list call :=
  match tr with
  | TEventResponse e _ tr' => call_of e :: calls tr'
  | TEventEnd e => [call_of e]
  | TEnd | TRet _ => []
  end.

(** The source strings handed to [PyRun_SimpleString]. *)
Fixpoint commands (cs : list call) : list string :=
  match cs with
  | [] => []
  | call_PyRun_SimpleString command :: cs' => command :: commands cs'
  | _ :: cs' => commands cs'
  end.

(** The five calls of the boot sequence. *)
Definition greeting : string := "Hello from Nyx OS!" ++ LF.
Definition statement1 : string := "print('Hello from Embedded Python')".
Definition statement2 : string := "import sys" ++ LF ++ "print(sys.version)".

Definition boot_sequence : list call :=
  [ call_printf greeting;
    call_Py_Initialize;
    call_PyRun_SimpleString statement1;
    call_PyRun_SimpleString statement2;
    call_Py_Finalize ].

(** The run in which [printf] answers [a] and the two script executions
    answer [b] and [c]. *)
Definition boot_trace (a b c : Z) : @trace libE Z :=
  TEventResponse (inl1 (printf greeting)) a
    (TEventResponse (inr1 Py_Initialize) tt
       (TEventResponse (inr1 (PyRun_SimpleString statement1)) b
          (TEventResponse (inr1 (PyRun_SimpleString statement2)) c
             (TEventResponse (inr1 Py_Finalize) tt
                (TRet 0))))).

(** A complete run: the trace reaches [return] with exit code [r]. *)
Definition run_of {R} (t : itree libE R) (tr : @trace libE R) (r : R) : Prop :=
  is_trace t tr /\ trace_ret tr = Some r.

(** ** The usage protocol of the embedded runtime

    A monitor over call sequences: the runtime starts uninitialised,
    [Py_Initialize] makes it ready, [PyRun_SimpleString] is legal only while
    it is ready, [Py_Finalize] ends its life.  [printf] is not the runtime's
    business. *)
Variant lifecycle : Type := Uninitialized | Ready | Finalized.

Definition protocol_step (st : lifecycle) (c : call) : option lifecycle :=
  match c, st with
  | call_printf _, _ => Some st
  | call_Py_Initialize, Uninitialized => Some Ready
  | call_PyRun_SimpleString _, Ready => Some Ready
  | call_Py_Finalize, Ready => Some Finalized
  | _, _ => None
  end.

Fixpoint protocol_run (st : lifecycle) (cs : list call) : option lifecycle :=
  match cs with
  | [] => Some st
  | c :: cs' =>
      match protocol_step st c with
      | Some st' => protocol_run st' cs'
      | None => None
      end
  end.

(** Text of a string up to its first line feed, and whether there is one. *)
Fixpoint first_line (s : string) : string :=
  match s with
  | EmptyString => EmptyString
  | String c s' => if Ascii.eqb c "010" then EmptyString else String c (first_line s')
  end.

Fixpoint has_line_feed (s : string) : bool :=
  match s with
  | EmptyString => false
  | String c s' => Ascii.eqb c "010" || has_line_feed s'
  end.



(* ===================================================================== *)
(** * 3. The process: standard output and the embedded runtime *)
(* ===================================================================== *)

(** ** Libraries as state transformers

    A library is a family of functions on some state [W] of the world, one
    per event.  Nothing is assumed about what they compute. *)
Definition library (W : Type) : Type := forall X, libE X -> W -> W * X.

Definition as_handler {W} (lib : library W) : libE ~> stateT W (itree void1) :=
  fun X e w => Ret (lib X e w).

(** The same library, also writing down every call it receives. *)
Definition recording {W} (lib : library W) : library (list call * W) :=
  fun X e lw =>
    (((fst lw ++ [call_of e])%list, fst (lib X e (snd lw))), snd (lib X e (snd lw))).

(** The state a library is left in by one call, and by a sequence of calls. *)
Definition after {W} (lib : library W) (c : call) (w : W) : W :=
  match c with
  | call_printf format => fst (lib _ (inl1 (printf format)) w)
  | call_Py_Initialize => fst (lib _ (inr1 Py_Initialize) w)
  | call_PyRun_SimpleString command => fst (lib _ (inr1 (PyRun_SimpleString command)) w)
  | call_Py_Finalize => fst (lib _ (inr1 Py_Finalize) w)
  end.

Definition feed {W} (lib : library W) (cs : list call) (w : W) : W :=
  fold_left (fun w c => after lib c w) cs w.

(** A library whose calls may fail to come back (the runtime aborts the
    process on a fatal error, a script may never finish) is a handler into
    trees that may be silent for ever.  [returns t]: the computation [t]
    comes back with some value. *)
Definition returns {R} (t : itree void1 R) : Prop := exists r, t ≈ Ret r.

(** [answered h c w w']: under [h], the call [c] made in state [w] comes
    back and leaves the state [w'].  [reaches h cs w w']: the calls [cs],
    made one after the other from [w], all come back and leave [w']. *)
Definition answered {W} (h : libE ~> stateT W (itree void1))
  (c : call) (w w' : W) : Prop :=
  match c with
  | call_printf format =>
      exists a : Z, h _ (inl1 (printf format)) w ≈ Ret (w', a)
  | call_Py_Initialize =>
      h _ (inr1 Py_Initialize) w ≈ Ret (w', tt)
  | call_PyRun_SimpleString command =>
      exists a : Z, h _ (inr1 (PyRun_SimpleString command)) w ≈ Ret (w', a)
  | call_Py_Finalize =>
      h _ (inr1 Py_Finalize) w ≈ Ret (w', tt)
  end.

Fixpoint reaches {W} (h : libE ~> stateT W (itree void1))
  (cs : list call) (w w' : W) : Prop :=
  match cs with
  | [] => w' = w
  | c :: cs' => exists w1, answered h c w w1 /\ reaches h cs' w1 w'
  end.

(** Running a closed computation for at most [fuel] steps. *)
Fixpoint run_for {R} (fuel : nat) (t : itree void1 R) : option R :=
  match fuel with
  | O => None
  | S fuel' =>
      match observe t with
      | RetF r => Some r
      | TauF t' => run_for fuel' t'
      | VisF e _ => match e in void1 _ return option R with end
      end
  end.

(** ** A simple library: one unbuffered output

    The simplest library to run [main] against: every call returns, and what
    [printf] and the runtime write is appended to one text in the order of
    the calls.  It serves as an example of a library of plain functions; the
    process with its buffers comes further down. *)
Record world (S : Type) : Type := {
  stdout : string;
  python : S }.

Definition initial_world {S} (s : S) : world S :=
  {| stdout := EmptyString; python := s |}.

(** [printf] with a format and no further argument: ordinary characters are
    copied, [%%] stands for one percent sign, and any other conversion would
    read an argument that was never passed, which C leaves undefined; the
    model refuses such a format. *)
Fixpoint format_plain (format : string) : option string :=
  match format with
  | EmptyString => Some EmptyString
  | String "%" (String "%" rest) => option_map (String "%") (format_plain rest)
  | String "%" _ => None
  | String c rest => option_map (String c) (format_plain rest)
  end.

Definition do_stdio {S X} (e : stdioE X) (w : world S) : world S * X :=
  match e with
  | printf format =>
      match format_plain format with
      | Some text =>
          ({| stdout := stdout w ++ text; python := python w |},
           Z.of_nat (String.length text))
      | None => (w, -1)
      end
  end.

(** ** The embedded runtime

    The runtime is an external collaborator: three capabilities over a state
    of its own.  Each tells the next state, the text it sent to standard
    output meanwhile, and the value handed back to the caller. *)
Record effect (S X : Type) : Type := {
  next : S;
  emitted : string;
  value : X }.

Record runtime : Type := {
  rt_state : Type;
  rt_ready : rt_state -> bool;
  rt_initialize : rt_state -> effect rt_state unit;
  rt_run : string -> rt_state -> effect rt_state Z;
  rt_finalize : rt_state -> effect rt_state unit }.

Definition apply_effect {S X} (w : world S) (r : effect S X) : world S * X :=
  ({| stdout := stdout w ++ emitted r; python := next r |}, value r).

Definition do_python (rt : runtime) {X} (e : pythonE X)
  (w : world (rt_state rt)) : world (rt_state rt) * X :=
  match e with
  | Py_Initialize => apply_effect w (rt_initialize rt (python w))
  | PyRun_SimpleString command => apply_effect w (rt_run rt command (python w))
  | Py_Finalize => apply_effect w (rt_finalize rt (python w))
  end.

Definition process_library (rt : runtime) : library (world (rt_state rt)) :=
  fun X e w =>
    match e with
    | inl1 e' => do_stdio e' w
    | inr1 e' => do_python rt e' w
    end.

(** The runtime's own state along the boot sequence ([printf] does not
    touch it), and what the runtime sent to standard output meanwhile. *)
Definition python_initialized (rt : runtime) (s : rt_state rt) : rt_state rt :=
  next (rt_initialize rt s).
Definition python_after_statement1 (rt : runtime) (s : rt_state rt) : rt_state rt :=
  next (rt_run rt statement1 (python_initialized rt s)).
Definition python_after_statement2 (rt : runtime) (s : rt_state rt) : rt_state rt :=
  next (rt_run rt statement2 (python_after_statement1 rt s)).
Definition python_finalized (rt : runtime) (s : rt_state rt) : rt_state rt :=
  next (rt_finalize rt (python_after_statement2 rt s)).

Definition interpreter_output (rt : runtime) (s : rt_state rt) : string :=
  emitted (rt_initialize rt s)
  ++ emitted (rt_run rt statement1 (python_initialized rt s))
  ++ emitted (rt_run rt statement2 (python_after_statement1 rt s))
  ++ emitted (rt_finalize rt (python_after_statement2 rt s)).

(** Text that a Python string literal in single quotes stands for itself:
    printable ASCII without quote and backslash. *)
Definition plain_char (c : ascii) : bool :=
  (32 <=? nat_of_ascii c)%nat && (nat_of_ascii c <=? 126)%nat
  && negb (Ascii.eqb c "'") && negb (Ascii.eqb c "\").

Fixpoint plain_literal (s : string) : bool :=
  match s with
  | EmptyString => true
  | String c s' => plain_char c && plain_literal s'
  end.

(** ** A reference runtime

    A small executable stand-in for the interpreter, enough to run the boot
    sequence: it follows the life cycle above and understands the two shapes
    of statement that [main] submits.  Any other statement, or a statement
    submitted while the runtime is not ready, fails with status -1. *)
Fixpoint strip_prefix (p s : string) : option string :=
  match p, s with
  | EmptyString, _ => Some s
  | String a p', String b s' => if Ascii.eqb a b then strip_prefix p' s' else None
  | String _ _, EmptyString => None
  end.

Fixpoint strip_suffix (q s : string) : option string :=
  if String.eqb s q then Some EmptyString
  else
    match s with
    | EmptyString => None
    | String c s' => option_map (String c) (strip_suffix q s')
    end.

Definition python_eval (version : string) (command : string) : option string :=
  if String.eqb command ("import sys" ++ LF ++ "print(sys.version)")
  then Some (version ++ LF)
  else
    match strip_prefix "print('" command with
    | Some rest =>
        match strip_suffix "')" rest with
        | Some text => if plain_literal text then Some (text ++ LF) else None
        | None => None
        end
    | None => None
    end.

Definition lifecycle_ready (st : lifecycle) : bool :=
  match st with
  | Ready => true
  | _ => false
  end.

Definition reference_run (version command : string) (st : lifecycle)
  : effect lifecycle Z :=
  match st with
  | Ready =>
      match python_eval version command with
      | Some text => {| next := Ready; emitted := text; value := 0 |}
      | None => {| next := Ready; emitted := EmptyString; value := -1 |}
      end
  | _ => {| next := st; emitted := EmptyString; value := -1 |}
  end.

Definition reference_python (version : string) : runtime := {|
  rt_state := lifecycle;
  rt_ready := lifecycle_ready;
  rt_initialize := fun _ => {| next := Ready; emitted := EmptyString; value := tt |};
  rt_run := reference_run version;
  rt_finalize := fun _ => {| next := Finalized; emitted := EmptyString; value := tt |} |}.

(** A runtime on which every statement fails and which is noisy at start-up
    and shut-down: the boot stub must not care. *)
Definition broken_python : runtime := {|
  rt_state := unit;
  rt_ready := fun _ => false;
  rt_initialize := fun _ => {| next := tt; emitted := "warning" ++ LF; value := tt |};
  rt_run := fun _ _ => {| next := tt; emitted := "Traceback" ++ LF; value := -1 |};
  rt_finalize := fun _ => {| next := tt; emitted := EmptyString; value := tt |} |}.

(** A library in which [Py_Initialize] never comes back; every other call
    behaves as on [broken_python]. *)
Definition hanging_initialize : libE ~> stateT (world unit) (itree void1) :=
  fun X e w =>
    match e with
    | inr1 Py_Initialize => ITree.spin
    | _ => as_handler (process_library broken_python) e w
    end.

(** ** The process as the operating system sees it

    A call into a library comes back with a value, or ends the process (the
    library calls [exit]), or never comes back. *)
Variant reply (W X : Type) : Type :=
| Returns (w : W) (x : X)
| Exits (w : W) (status : Z)
| Hangs (w : W).

Arguments Returns {W X} w x.
Arguments Exits {W X} w status.
Arguments Hangs {W X} w.

Definition os_library (W : Type) : Type := forall X, libE X -> W -> reply W X.

(** [returning lib]: the five calls of the boot sequence come back, whatever
    state they are made in. *)
Definition returning {W} (lib : os_library W) : Prop :=
  forall X (e : libE X) (w : W),
    In (call_of e) boot_sequence -> exists w' x, lib X e w = Returns w' x.

(** How a run ended: [main] returned (and the start-up code exits with that
    code), a library ended the process, a call hung, or the run was stopped
    for lack of fuel. *)
Variant ending : Type :=
| Returned (code : Z)
| Exited (status : Z)
| Hung
| Unfinished.

Record outcome (W : Type) : Type := {
  issued : list call;
  final : W;
  how : ending }.

(** Running a program against such a library, writing down the calls. *)
Fixpoint run_process {W} (fuel : nat) (lib : os_library W) (t : itree libE Z)
  (log : list call) (w : W) : outcome W :=
  match fuel with
  | O => {| issued := log; final := w; how := Unfinished |}
  | S fuel' =>
      match observe t with
      | RetF r => {| issued := log; final := w; how := Returned r |}
      | TauF t' => run_process fuel' lib t' log w
      | VisF e k =>
          match lib _ e w with
          | Returns w' x => run_process fuel' lib (k x) (log ++ [call_of e])%list w'
          | Exits w' status =>
              {| issued := (log ++ [call_of e])%list; final := w'; how := Exited status |}
          | Hangs w' =>
              {| issued := (log ++ [call_of e])%list; final := w'; how := Hung |}
          end
      end
  end.

(** [main] is over after five calls and a [return]. *)
Definition run_main {W} (lib : os_library W) (i : input) (w : W) : outcome W :=
  run_process 6 lib (entry i) [] w.

(** ** Standard output with its buffers

    [printf] puts characters into the C stream [stdout]; they reach file
    descriptor 1 when the stream is flushed: at once if the stream is
    unbuffered, at each line feed if it is line buffered (a terminal), and
    only when the buffer fills or the process exits if it is fully buffered
    (a pipe or a file).  [main] never flushes.  The embedded runtime does
    not write through the C stream: what it sends goes to the descriptor
    during its own calls. *)
Variant buffering : Type := Unbuffered | LineBuffered | FullyBuffered.

Record process (S : Type) : Type := {
  stream_mode : buffering;
  stream_pending : string;
  descriptor : string;
  interpreter : S }.

Definition fresh {S} (mode : buffering) (s : S) : process S :=
  {| stream_mode := mode; stream_pending := EmptyString;
     descriptor := EmptyString; interpreter := s |}.

(** The part of a text up to and including its last line feed, and the part
    after it. *)
Fixpoint flushable (s : string) : string :=
  match s with
  | EmptyString => EmptyString
  | String c s' => if has_line_feed s then String c (flushable s') else EmptyString
  end.

Fixpoint held_back (s : string) : string :=
  match s with
  | EmptyString => EmptyString
  | String c s' => if has_line_feed s then held_back s' else s
  end.

(** The texts [main] prints are far shorter than the stream's buffer (at
    least 256 characters in C), so a fully buffered stream only collects. *)
Definition stream_put {S} (text : string) (p : process S) : process S :=
  match stream_mode p with
  | Unbuffered =>
      {| stream_mode := stream_mode p; stream_pending := EmptyString;
         descriptor := descriptor p ++ stream_pending p ++ text;
         interpreter := interpreter p |}
  | LineBuffered =>
      {| stream_mode := stream_mode p;
         stream_pending := held_back (stream_pending p ++ text);
         descriptor := descriptor p ++ flushable (stream_pending p ++ text);
         interpreter := interpreter p |}
  | FullyBuffered =>
      {| stream_mode := stream_mode p;
         stream_pending := stream_pending p ++ text;
         descriptor := descriptor p;
         interpreter := interpreter p |}
  end.

Definition runtime_did {S X} (p : process S) (r : effect S X) : reply (process S) X :=
  Returns {| stream_mode := stream_mode p; stream_pending := stream_pending p;
             descriptor := descriptor p ++ emitted r;
             interpreter := next r |}
          (value r).

Definition os_stdio {S X} (e : stdioE X) (p : process S) : reply (process S) X :=
  match e with
  | printf format =>
      match format_plain format with
      | Some text => Returns (stream_put text p) (Z.of_nat (String.length text))
      | None => Returns p (-1)
      end
  end.

(** [fatal]: the exit status with which [Py_Initialize] ends the process when
    the runtime cannot start (its standard library is not where the
    environment says, for one), or [None] when it starts. *)
Definition os_python (fatal : option Z) (rt : runtime) {X} (e : pythonE X)
  (p : process (rt_state rt)) : reply (process (rt_state rt)) X :=
  match e with
  | Py_Initialize =>
      match fatal with
      | Some status => Exits p status
      | None => runtime_did p (rt_initialize rt (interpreter p))
      end
  | PyRun_SimpleString command => runtime_did p (rt_run rt command (interpreter p))
  | Py_Finalize => runtime_did p (rt_finalize rt (interpreter p))
  end.

Definition process_os (fatal : option Z) (rt : runtime)
  : os_library (process (rt_state rt)) :=
  fun X e p =>
    match e with
    | inl1 e' => os_stdio e' p
    | inr1 e' => os_python fatal rt e' p
    end.

(** One execution of the program in a fresh process. *)
Definition boot_process (fatal : option Z) (rt : runtime) (mode : buffering)
  (s : rt_state rt) : outcome (process (rt_state rt)) :=
  run_process 6 (process_os fatal rt) main [] (fresh mode s).

(** What file descriptor 1 has received when the run is over: [exit], also
    the one after [main] returns, flushes the stream. *)
Definition stdout_bytes {S} (o : outcome (process S)) : string :=
  match how o with
  | Returned _ | Exited _ => descriptor (final o) ++ stream_pending (final o)
  | Hung | Unfinished => descriptor (final o)
  end.

(** A runtime that keeps what it prints in a buffer of its own until
    [Py_Finalize], as the interpreter does when its output is not a
    terminal. *)
Definition held_until_finalize (rt : runtime) : runtime := {|
  rt_state := rt_state rt * string;
  rt_ready := fun s => rt_ready rt (fst s);
  rt_initialize := fun s =>
    {| next := (next (rt_initialize rt (fst s)),
                snd s ++ emitted (rt_initialize rt (fst s)));
       emitted := EmptyString; value := tt |};
  rt_run := fun command s =>
    {| next := (next (rt_run rt command (fst s)),
                snd s ++ emitted (rt_run rt command (fst s)));
       emitted := EmptyString;
       value := value (rt_run rt command (fst s)) |};
  rt_finalize := fun s =>
    {| next := (next (rt_finalize rt (fst s)), EmptyString);
       emitted := snd s ++ emitted (rt_finalize rt (fst s));
       value := tt |} |}.

(** A runtime start-up that reads the environment: it ends the process with
    status 1 when [PYTHONHOME] names a place without a standard library. *)
Definition bad_python_home : string := "/nonexistent".

Definition fatal_for (i : input) : option Z :=
  if existsb (fun kv => String.eqb (fst kv) "PYTHONHOME"
                        && String.eqb (snd kv) bad_python_home)
             (environ i)
  then Some 1 else None.

Definition environment_sensitive (i : input) : os_library (process lifecycle) :=
  process_os (fatal_for i) (reference_python "3.12.0").

Definition plain_start : input :=
  {| argv := ["nyx"]; environ := []; stdin := EmptyString |}.

Definition misconfigured_start : input :=
  {| argv := ["nyx"]; environ := [("PYTHONHOME", bad_python_home)];
     stdin := EmptyString |}.

(* ===================================================================== *)
(** * 4. Traces of [main] *)
(* ===================================================================== *)

Section TraceInversion.
Context {E : Type -> Type} {R : Type}.

(** A trace of a tree that starts with a call stops before the call, stops
    at the unanswered call, or goes on after some answer. *)
Lemma is_traceF_Vis_inv {X} (e : E X) (k : X -> itree E R) (tr : @trace E R) :
  is_traceF (VisF e k) tr ->
  tr = TEnd \/ tr = TEventEnd e \/
  exists x tr', tr = TEventResponse e x tr' /\ is_trace (k x) tr'.
Proof.
  intros H. inversion H; subst; ddestruction; auto.
  right; right. eexists; eexists; split; [reflexivity | assumption].
Qed.

Lemma is_traceF_Ret_inv (r : R) (tr : @trace E R) :
  is_traceF (RetF r : itree' E R) tr -> tr = TEnd \/ tr = TRet r.
Proof.
  intros H. inversion H; subst; auto.
Qed.

End TraceInversion.

(** One step through a trace of what is left of the program: the trace ends
    here (two goals), or the call was answered by [x] and [H] speaks of the
    rest. *)
Ltac next_call H x :=
  red in H; cbn in H;
  apply is_traceF_Vis_inv in H;
  destruct H as [H | [H | (x & ?tr & ?Heq & H)]]; subst.

Ltac last_return H :=
  red in H; cbn in H;
  apply is_traceF_Ret_inv in H;
  destruct H as [H | H]; subst.

(** Whatever the three answers, [boot_trace] is a trace of [main]. *)
Lemma boot_trace_is_trace (a b c : Z) : is_trace main (boot_trace a b c).
Proof.
  red; cbn. repeat (constructor; cbn).
Qed.

(** Every trace of [main] issues an initial segment of the boot sequence. *)
Lemma main_trace_calls (tr : @trace libE Z) :
  is_trace main tr -> exists n, calls tr = firstn n boot_sequence.
Proof.
  intros H.
  next_call H a; [exists 0%nat; reflexivity | exists 1%nat; reflexivity | ].
  next_call H u; [exists 1%nat; reflexivity | exists 2%nat; reflexivity | ].
  next_call H b; [exists 2%nat; reflexivity | exists 3%nat; reflexivity | ].
  next_call H c; [exists 3%nat; reflexivity | exists 4%nat; reflexivity | ].
  next_call H v; [exists 4%nat; reflexivity | exists 5%nat; reflexivity | ].
  last_return H; exists 5%nat; reflexivity.
Qed.

(** The complete runs of [main] are exactly the traces [boot_trace a b c]. *)
Lemma main_complete_trace (tr : @trace libE Z) (r : Z) :
  run_of main tr r -> exists a b c, tr = boot_trace a b c /\ r = 0.
Proof.
  intros [H Hret].
  next_call H a; try discriminate.
  next_call H u; try discriminate.
  next_call H b; try discriminate.
  next_call H c; try discriminate.
  next_call H v; try discriminate.
  last_return H; try discriminate.
  cbn in Hret. injection Hret as <-.
  destruct u, v. exists a, b, c. split; reflexivity.
Qed.

Lemma boot_trace_run (a b c : Z) : run_of main (boot_trace a b c) 0.
Proof.
  split; [apply boot_trace_is_trace | reflexivity].
Qed.

Lemma main_run_calls (tr : @trace libE Z) (r : Z) :
  run_of main tr r -> calls tr = boot_sequence.
Proof.
  intros H. apply main_complete_trace in H.
  destruct H as (a & b & c & -> & _). reflexivity.
Qed.

(** ** The protocol monitor

    What acceptance by the monitor says about the positions of the calls. *)
Lemma protocol_run_app (st : lifecycle) (l1 l2 : list call) :
  protocol_run st (l1 ++ l2)%list =
  match protocol_run st l1 with
  | Some st' => protocol_run st' l2
  | None => None
  end.
Proof.
  revert st. induction l1 as [|c l1 IH]; intros st; cbn; [reflexivity|].
  destruct (protocol_step st c); [apply IH | reflexivity].
Qed.

(** A runtime that is ready has been initialised and not yet finalised. *)
Lemma protocol_ready_inv (pre : list call) :
  protocol_run Uninitialized pre = Some Ready ->
  In call_Py_Initialize pre /\ ~ In call_Py_Finalize pre.
Proof.
  assert (G : forall l st, protocol_run st l = Some Ready ->
                (st = Ready /\ ~ In call_Py_Initialize l /\ ~ In call_Py_Finalize l)
                \/ (st = Uninitialized /\ In call_Py_Initialize l
                    /\ ~ In call_Py_Finalize l)).
  { induction l as [|c l IH]; intros st H; cbn in H.
    - injection H as ->. left. cbn. tauto.
    - destruct c, st; cbn in H; try discriminate;
        apply IH in H; cbn;
        destruct H as [(E1 & N1 & N2) | (E1 & N1 & N2)]; try discriminate;
        (left + right); repeat split; auto; intros [D | D]; try discriminate; auto. }
  intros H. apply G in H.
  destruct H as [(E1 & _) | (_ & H)]; [discriminate | exact H].
Qed.

(** Once finalised, the monitor accepts no further call into the runtime. *)
Lemma protocol_finalized_inv (post : list call) (st : lifecycle) :
  protocol_run Finalized post = Some st ->
  st = Finalized /\ forall c, In c post -> is_python c = false.
Proof.
  induction post as [|c post IH]; cbn; intros H.
  - injection H as <-. split; [reflexivity | intros c []].
  - destruct c; cbn in H; try discriminate.
    apply IH in H. destruct H as [-> H]. split; [reflexivity|].
    intros c [<- | Hc]; [reflexivity | auto].
Qed.

(** From a ready runtime, an accepted sequence that ends finalised contains
    the finalisation. *)
Lemma protocol_finalize_ahead (post : list call) :
  protocol_run Ready post = Some Finalized -> In call_Py_Finalize post.
Proof.
  induction post as [|c post IH]; cbn; intros H; [discriminate|].
  destruct c; cbn in H; try discriminate; auto.
Qed.

(** Every initial segment of the boot sequence is accepted. *)
Lemma protocol_boot_prefix (n : nat) :
  protocol_run Uninitialized (firstn n boot_sequence) <> None.
Proof.
  do 6 (destruct n as [|n]; [cbn; discriminate|]). cbn; discriminate.
Qed.

(* ===================================================================== *)
(** * 5. Executions against a library *)
(* ===================================================================== *)

(** ** Strings *)
Lemma append_assoc (a b c : string) : (a ++ b) ++ c = a ++ (b ++ c).
Proof.
  induction a as [|x a IH]; cbn; [reflexivity | now rewrite IH].
Qed.

Lemma length_append (a b : string) :
  String.length (a ++ b) = (String.length a + String.length b)%nat.
Proof.
  induction a as [|x a IH]; cbn; [reflexivity | now rewrite IH].
Qed.

Lemma first_line_append (a rest : string) :
  has_line_feed a = false -> first_line (a ++ LF ++ rest) = a.
Proof.
  induction a as [|x a IH]; cbn; intros H; [reflexivity|].
  apply orb_false_elim in H. destruct H as [Hx Ha].
  rewrite Hx. f_equal. apply IH, Ha.
Qed.

Lemma strip_prefix_append (p s : string) : strip_prefix p (p ++ s) = Some s.
Proof.
  induction p as [|x p IH]; cbn; [destruct s; reflexivity|].
  now rewrite Ascii.eqb_refl.
Qed.

Lemma strip_suffix_append (q text : string) :
  strip_suffix q (text ++ q) = Some text.
Proof.
  induction text as [|x text IH].
  - cbn. destruct q; cbn; [reflexivity|].
    now rewrite Ascii.eqb_refl, String.eqb_refl.
  - cbn [append strip_suffix].
    destruct (String.eqb (String x (text ++ q)) q) eqn:E.
    + apply String.eqb_eq in E. apply (f_equal String.length) in E.
      cbn in E. rewrite length_append in E. lia.
    + rewrite IH. reflexivity.
Qed.

(** ** Pure libraries *)

(** A computation that yields a value within some number of steps is
    equivalent to returning that value. *)
Lemma run_for_returns {R} (fuel : nat) (t : itree void1 R) (r : R) :
  run_for fuel t = Some r -> t ≈ Ret r.
Proof.
  revert t. induction fuel as [|fuel IH]; intros t H; [discriminate|].
  cbn in H. destruct (observe t) eqn:Ho.
  - injection H as ->. now rewrite (itree_eta t), Ho.
  - rewrite (itree_eta t), Ho, tau_eutt. now apply IH.
  - destruct e.
Qed.

Lemma run_for_more {R} (fuel extra : nat) (t : itree void1 R) (r : R) :
  run_for fuel t = Some r -> run_for (fuel + extra) t = Some r.
Proof.
  revert t. induction fuel as [|fuel IH]; intros t H; [discriminate|].
  cbn in *. destruct (observe t); auto.
Qed.

(** Against any library whatsoever, [main] returns 0 after six steps, having
    fed the library the boot sequence. *)
Lemma main_with_library {W} (lib : library W) (w : W) :
  run_for 6 (interp_state (as_handler lib) main w)
  = Some (feed lib boot_sequence w, 0).
Proof.
  reflexivity.
Qed.

Lemma main_against_library {W} (lib : library W) (w : W) :
  interp_state (as_handler lib) main w ≈ Ret (feed lib boot_sequence w, 0).
Proof.
  apply run_for_returns with (fuel := 6%nat), main_with_library.
Qed.

(** The recording library ends with the calls it was fed behind the ones it
    had, and leaves the underlying library as if nothing was recorded. *)
Lemma feed_recording {W} (lib : library W) (cs log : list call) (w : W) :
  feed (recording lib) cs (log, w) = ((log ++ cs)%list, feed lib cs w).
Proof.
  revert log w. induction cs as [|c cs IH]; intros log w; cbn.
  - now rewrite app_nil_r.
  - unfold feed in IH. destruct c; cbn; rewrite IH, <- app_assoc; reflexivity.
Qed.

Lemma main_recorded {W} (lib : library W) (w : W) :
  interp_state (as_handler (recording lib)) main ([], w)
  ≈ Ret ((boot_sequence, feed lib boot_sequence w), 0).
Proof.
  rewrite main_against_library, feed_recording. reflexivity.
Qed.

(** ** The process library *)
Lemma format_plain_greeting : format_plain greeting = Some greeting.
Proof.
  reflexivity.
Qed.

(** The reference runtime prints literals and its version. *)
Lemma python_eval_print (version text : string) :
  plain_literal text = true ->
  python_eval version ("print('" ++ text ++ "')") = Some (text ++ LF).
Proof.
  intros Hp. unfold python_eval. cbn.
  rewrite strip_suffix_append, Hp. reflexivity.
Qed.

Lemma python_eval_version (version : string) :
  python_eval version ("import sys" ++ LF ++ "print(sys.version)") = Some (version ++ LF).
Proof.
  unfold python_eval. rewrite String.eqb_refl. reflexivity.
Qed.

(** ** Libraries whose calls may not return *)
Lemma returns_Ret {R} (r : R) : returns (Ret r).
Proof.
  exists r. reflexivity.
Qed.

Lemma as_handler_returns {W} (lib : library W) {X} (e : libE X) (w : W) :
  returns (as_handler lib e w).
Proof.
  apply returns_Ret.
Qed.

(** If the five calls of the boot sequence come back, [main] reaches its
    [return 0]. *)
Lemma main_returns_under {W} (h : libE ~> stateT W (itree void1)) :
  (forall X (e : libE X), In (call_of e) boot_sequence -> forall w, returns (h X e w)) ->
  forall w, exists w', interp_state h main w ≈ Ret (w', 0).
Proof.
  intros H w. unfold main.
  destruct (H _ (inl1 (printf greeting)) ltac:(cbn; tauto) w) as [[w1 a] E1].
  destruct (H _ (inr1 Py_Initialize) ltac:(cbn; tauto) w1) as [[w2 u] E2].
  destruct (H _ (inr1 (PyRun_SimpleString statement1)) ltac:(cbn; tauto) w2) as [[w3 b] E3].
  destruct (H _ (inr1 (PyRun_SimpleString statement2)) ltac:(cbn; tauto) w3) as [[w4 c] E4].
  destruct (H _ (inr1 Py_Finalize) ltac:(cbn; tauto) w4) as [[w5 v] E5].
  exists w5.
  rewrite interp_state_bind, interp_state_trigger.
  change (h Z (subevent Z (printf ("Hello from Nyx OS!" ++ LF))) w)
    with (h Z (inl1 (printf greeting)) w).
  rewrite E1, bind_ret_l. cbn [fst snd].
  rewrite interp_state_bind, interp_state_trigger.
  change (h unit (subevent unit Py_Initialize) w1) with (h unit (inr1 Py_Initialize) w1).
  rewrite E2, bind_ret_l. cbn [fst snd].
  rewrite interp_state_bind, interp_state_trigger.
  change (h Z (subevent Z (PyRun_SimpleString "print('Hello from Embedded Python')")) w2)
    with (h Z (inr1 (PyRun_SimpleString statement1)) w2).
  rewrite E3, bind_ret_l. cbn [fst snd].
  rewrite interp_state_bind, interp_state_trigger.
  change (h Z (subevent Z (PyRun_SimpleString ("import sys" ++ LF ++ "print(sys.version)"))) w3)
    with (h Z (inr1 (PyRun_SimpleString statement2)) w3).
  rewrite E4, bind_ret_l. cbn [fst snd].
  rewrite interp_state_bind, interp_state_trigger.
  change (h unit (subevent unit Py_Finalize) w4) with (h unit (inr1 Py_Finalize) w4).
  rewrite E5, bind_ret_l. cbn [fst snd].
  rewrite interp_state_ret. reflexivity.
Qed.

(** [main] has no infinite branch: whatever the answers, a [return] is
    reached after finitely many calls. *)
Lemma main_all_finite : all_finite main.
Proof.
  unfold main.
  repeat (apply all_finite_bind_weak; [apply all_finite_trigger | intros _]).
  apply all_finite_Ret.
Qed.

(** The assumption is needed: where [Py_Initialize] hangs, so does [main]. *)
Lemma main_hangs_with_initialize (w : world unit) :
  ~ returns (interp_state hanging_initialize main w).
Proof.
  intros [r Hr]. unfold main in Hr.
  rewrite interp_state_bind, interp_state_trigger in Hr.
  cbn in Hr. unfold as_handler in Hr. rewrite bind_ret_l in Hr. cbn [fst snd] in Hr.
  rewrite interp_state_bind, interp_state_trigger in Hr.
  cbn in Hr.
  assert (F : all_finite (Ret r : itree void1 _)) by apply all_finite_Ret.
  eapply all_finite_eutt_r in F; [|exact Hr].
  apply all_finite_bind_inv_left in F.
  exact (@spin_not_all_finite _ _ F).
Qed.

(** ** Processes *)
Lemma in_initial_segment {A} (x : A) (n : nat) (l : list A) :
  In x (firstn n l) -> In x l.
Proof.
  revert l. induction n as [|n IH]; intros [|y l] H; cbn in H; try contradiction.
  destruct H as [-> | H]; [left; reflexivity | right; apply IH, H].
Qed.

Lemma append_empty_r (a : string) : a ++ EmptyString = a.
Proof.
  induction a as [|x a IH]; cbn; [reflexivity | now rewrite IH].
Qed.

(** Taking the answers of the library one at a time. *)
Ltac next_reply :=
  match goal with
  | |- context [match ?x with Returns _ _ => _ | Exits _ _ => _ | Hangs _ => _ end] =>
      destruct x eqn:?; cbn
  end.

Ltac segment_of_boot_sequence :=
  first [ exists 1%nat; reflexivity | exists 2%nat; reflexivity
        | exists 3%nat; reflexivity | exists 4%nat; reflexivity
        | exists 5%nat; reflexivity ].

(** Whatever the library does, a run of [main] is over within six steps and
    has issued an initial segment of the boot sequence; it ends by a return
    only after all five calls, and then with 0. *)
Lemma run_main_shape {W} (lib : os_library W) (i : input) (w : W) :
  how (run_main lib i w) <> Unfinished
  /\ (exists n, issued (run_main lib i w) = firstn n boot_sequence)
  /\ (forall r, how (run_main lib i w) = Returned r ->
        r = 0 /\ issued (run_main lib i w) = boot_sequence).
Proof.
  unfold run_main, entry. cbn.
  repeat next_reply;
    (split; [discriminate|]);
    (split; [segment_of_boot_sequence|]);
    intros r Hr; try discriminate;
    injection Hr as <-; split; reflexivity.
Qed.

(** When the calls of the boot sequence come back, so does [main]. *)
Lemma run_main_returning {W} (lib : os_library W) (i : input) (w : W) :
  returning lib ->
  how (run_main lib i w) = Returned 0
  /\ issued (run_main lib i w) = boot_sequence.
Proof.
  intros H.
  assert (G : forall X (e : libE X) (w0 : W) (o : outcome W) (status : Z),
             In (call_of e) boot_sequence ->
             lib X e w0 <> Exits (final o) status /\ lib X e w0 <> Hangs (final o)).
  { intros X e w0 o status Hin. destruct (H X e w0 Hin) as (w' & x & ->).
    split; discriminate. }
  unfold run_main, entry. cbn.
  repeat next_reply;
    try (split; reflexivity);
    exfalso;
    match goal with
    | E : lib ?X ?e ?w0 = Exits ?w1 ?st |- _ =>
        destruct (H X e w0) as (? & ? & E'); [cbn; tauto | congruence]
    | E : lib ?X ?e ?w0 = Hangs ?w1 |- _ =>
        destruct (H X e w0) as (? & ? & E'); [cbn; tauto | congruence]
    end.
Qed.


(** On a stream that is not fully buffered the greeting is on the descriptor
    before the runtime is entered. *)
Lemma boot_process_bytes (rt : runtime) (mode : buffering) (s : rt_state rt) :
  mode <> FullyBuffered ->
  stdout_bytes (boot_process None rt mode s) = greeting ++ interpreter_output rt s.
Proof.
  intros Hm. unfold interpreter_output.
  destruct mode; [| |congruence]; cbn;
    rewrite append_empty_r, !append_assoc; reflexivity.
Qed.

(** When the runtime cannot start, the process is over after two calls, with
    the runtime's status and the greeting alone on standard output. *)
Lemma boot_process_fatal (rt : runtime) (mode : buffering) (s : rt_state rt)
  (status : Z) :
  how (boot_process (Some status) rt mode s) = Exited status
  /\ issued (boot_process (Some status) rt mode s)
     = [call_printf greeting; call_Py_Initialize]
  /\ stdout_bytes (boot_process (Some status) rt mode s) = greeting.
Proof.
  destruct mode; repeat split; reflexivity.
Qed.

(** In a process whose runtime starts, every call comes back. *)
Lemma returning_process_os (rt : runtime) : returning (process_os None rt).
Proof.
  intros X e w _. destruct e as [e | e]; destruct e; cbn.
  - destruct (format_plain format); eexists; eexists; reflexivity.
  - eexists; eexists; reflexivity.
  - eexists; eexists; reflexivity.
  - eexists; eexists; reflexivity.
Qed.

(* ===================================================================== *)
(** * 6. Properties of the boot stub *)
(* ===================================================================== *)

(** ** Three concrete executions *)

(** On a terminal, with the reference runtime: three lines, exit code 0. *)
Example boot_on_a_terminal :
  stdout_bytes (boot_process None (reference_python "3.12.0") LineBuffered Uninitialized)
  = "Hello from Nyx OS!" ++ LF
    ++ "Hello from Embedded Python" ++ LF
    ++ "3.12.0" ++ LF
  /\ how (boot_process None (reference_python "3.12.0") LineBuffered Uninitialized)
     = Returned 0.
Proof.
  split; vm_compute; reflexivity.
Qed.

(** Into a pipe, with a runtime that buffers its output: the same three
    lines, the greeting last. *)
Example boot_into_a_pipe :
  stdout_bytes (boot_process None (held_until_finalize (reference_python "3.12.0"))
                  FullyBuffered (Uninitialized, EmptyString))
  = "Hello from Embedded Python" ++ LF
    ++ "3.12.0" ++ LF
    ++ "Hello from Nyx OS!" ++ LF.
Proof.
  vm_compute. reflexivity.
Qed.

(** On a runtime where every statement fails the exit code is still 0. *)
Example boot_broken_python :
  how (boot_process None broken_python Unbuffered tt) = Returned 0
  /\ stdout_bytes (boot_process None broken_python Unbuffered tt)
     = "Hello from Nyx OS!" ++ LF
       ++ "warning" ++ LF
       ++ "Traceback" ++ LF
       ++ "Traceback" ++ LF.
Proof.
  split; vm_compute; reflexivity.
Qed.

(** ** Output and exit status *)




(** C8, as stated, fails into a pipe: the first line that reaches standard
    output is the interpreter's, the greeting being still in the C stream's
    buffer when the interpreter writes. *)
Lemma first_line_into_a_pipe :
  first_line
    (stdout_bytes (boot_process None (held_until_finalize (reference_python "3.12.0"))
                     FullyBuffered (Uninitialized, EmptyString)))
  = "Hello from Embedded Python"
  /\ "Hello from Embedded Python" <> "Hello from Nyx OS!".
Proof.
  split; [vm_compute; reflexivity | discriminate].
Qed.

(** C8 (amended). The first call of every run is [printf] with exactly the
    text "Hello from Nyx OS!" and a line feed, and no other [printf]
    follows.  When standard output is unbuffered or line buffered that text
    is the first line on file descriptor 1, whatever the runtime does
    afterwards, even if it ends the process. *)
Theorem first_line_is_greeting :
  is_trace main (TEventEnd (inl1 (printf ("Hello from Nyx OS!" ++ LF))))
  /\ (forall tr : @trace libE Z, is_trace main tr ->
        calls tr = []
        \/ exists rest,
             calls tr = call_printf ("Hello from Nyx OS!" ++ LF) :: rest
             /\ forall format, ~ In (call_printf format) rest)
  /\ (forall (fatal : option Z) (rt : runtime) (mode : buffering) (s : rt_state rt),
        mode <> FullyBuffered ->
        exists rest,
          stdout_bytes (boot_process fatal rt mode s)
          = "Hello from Nyx OS!" ++ LF ++ rest
          /\ first_line (stdout_bytes (boot_process fatal rt mode s))
             = "Hello from Nyx OS!").
Proof.
  split; [red; cbn; constructor|].
  split.
  - intros tr H. destruct (main_trace_calls H) as [n Hn]. rewrite Hn.
    destruct n as [|n]; [left; reflexivity|]. right.
    exists (firstn n (tl boot_sequence)). split; [reflexivity|].
    intros format Hin. apply in_initial_segment in Hin. cbn in Hin.
    repeat destruct Hin as [Hin | Hin]; try discriminate; assumption.
  - intros fatal rt mode s Hm.
    assert (G : exists rest, stdout_bytes (boot_process fatal rt mode s)
                             = "Hello from Nyx OS!" ++ LF ++ rest).
    { destruct fatal as [status|].
      - exists EmptyString.
        rewrite (proj2 (proj2 (boot_process_fatal rt mode s status))).
        reflexivity.
      - exists (interpreter_output rt s). apply boot_process_bytes, Hm. }
    destruct G as [rest G]. exists rest. split; [exact G|].
    rewrite G. apply (first_line_append "Hello from Nyx OS!"). reflexivity.
Qed.

Lemma first_line_is_greeting_witness :
  is_trace main (boot_trace 19 0 0)
  /\ LineBuffered <> FullyBuffered
  /\ (calls (boot_trace 19 0 0) = []
      \/ exists rest,
           calls (boot_trace 19 0 0) = call_printf ("Hello from Nyx OS!" ++ LF) :: rest
           /\ forall format, ~ In (call_printf format) rest)
  /\ exists rest,
       stdout_bytes (boot_process (Some 1) broken_python LineBuffered tt)
       = "Hello from Nyx OS!" ++ LF ++ rest
       /\ first_line (stdout_bytes (boot_process (Some 1) broken_python LineBuffered tt))
          = "Hello from Nyx OS!".
Proof.
  split; [apply boot_trace_is_trace|].
  split; [discriminate|].
  split.
  - apply (proj1 (proj2 first_line_is_greeting) (boot_trace 19 0 0)).
    apply boot_trace_is_trace.
  - apply (proj2 (proj2 first_line_is_greeting) (Some 1) broken_python LineBuffered tt).
    discriminate.
Defined.

(** ** The sequence of calls *)



(** C3. In every run, complete or cut short, each [PyRun_SimpleString] comes
    after [Py_Initialize] and before any [Py_Finalize]; nothing is asked of
    the interpreter after [Py_Finalize]; and in a complete run every
    [PyRun_SimpleString] is followed by the [Py_Finalize]. *)
Theorem interpreter_protocol_respected (tr : @trace libE Z) :
  is_trace main tr ->
  (forall pre command post,
      calls tr = (pre ++ call_PyRun_SimpleString command :: post)%list ->
      In call_Py_Initialize pre /\ ~ In call_Py_Finalize pre)
  /\ (forall pre post,
      calls tr = (pre ++ call_Py_Finalize :: post)%list ->
      forall c, In c post -> is_python c = false)
  /\ (forall r pre command post,
      trace_ret tr = Some r ->
      calls tr = (pre ++ call_PyRun_SimpleString command :: post)%list ->
      In call_Py_Finalize post).
Proof.
  intros H.
  assert (A : protocol_run Uninitialized (calls tr) <> None).
  { destruct (main_trace_calls H) as [n ->]. apply protocol_boot_prefix. }
  split; [|split].
  - intros pre command post E. rewrite E, protocol_run_app in A.
    destruct (protocol_run Uninitialized pre) as [[]|] eqn:Hpre;
      cbn in A; try congruence.
    apply protocol_ready_inv, Hpre.
  - intros pre post E. rewrite E, protocol_run_app in A.
    destruct (protocol_run Uninitialized pre) as [[]|] eqn:Hpre;
      cbn in A; try congruence.
    destruct (protocol_run Finalized post) as [st|] eqn:Hpost; try congruence.
    apply (protocol_finalized_inv _ Hpost).
  - intros r pre command post Hr E.
    assert (F : protocol_run Uninitialized (calls tr) = Some Finalized).
    { rewrite (@main_run_calls tr r) by (split; assumption). reflexivity. }
    rewrite E, protocol_run_app in F.
    destruct (protocol_run Uninitialized pre) as [[]|] eqn:Hpre;
      cbn in F; try congruence.
    apply protocol_finalize_ahead, F.
Qed.

Lemma interpreter_protocol_respected_witness :
  is_trace main (boot_trace 19 0 (-1))
  /\ (forall pre command post,
      calls (boot_trace 19 0 (-1))
      = (pre ++ call_PyRun_SimpleString command :: post)%list ->
      In call_Py_Initialize pre /\ ~ In call_Py_Finalize pre)
  /\ (forall pre post,
      calls (boot_trace 19 0 (-1)) = (pre ++ call_Py_Finalize :: post)%list ->
      forall c, In c post -> is_python c = false)
  /\ (forall r pre command post,
      trace_ret (boot_trace 19 0 (-1)) = Some r ->
      calls (boot_trace 19 0 (-1))
      = (pre ++ call_PyRun_SimpleString command :: post)%list ->
      In call_Py_Finalize post).
Proof.
  split; [apply boot_trace_is_trace|].
  apply (@interpreter_protocol_respected (boot_trace 19 0 (-1))).
  apply boot_trace_is_trace.
Defined.

(** C5, as stated, fails on the run in which the runtime cannot start:
    [Py_Initialize] ends the process, and no statement at all has been
    submitted. *)
Lemma no_statement_when_runtime_cannot_start :
  is_trace main
    (TEventResponse (inl1 (printf greeting)) 19 (TEventEnd (inr1 Py_Initialize)))
  /\ issued (boot_process (Some 1) (reference_python "3.12.0") LineBuffered Uninitialized)
     = [call_printf greeting; call_Py_Initialize]
  /\ how (boot_process (Some 1) (reference_python "3.12.0") LineBuffered Uninitialized)
     = Exited 1
  /\ length (filter is_run
               (issued (boot_process (Some 1) (reference_python "3.12.0")
                          LineBuffered Uninitialized))) = 0%nat
  /\ 0%nat <> 2%nat.
Proof.
  split; [red; cbn; repeat (constructor; cbn)|].
  split; [vm_compute; reflexivity|].
  split; [vm_compute; reflexivity|].
  split; [vm_compute; reflexivity | discriminate].
Qed.

(** One more statement is submitted with each further call that returns. *)
Lemma commands_initial_segment (n : nat) :
  exists m, commands (firstn n boot_sequence) = firstn m [statement1; statement2].
Proof.
  do 3 (destruct n as [|n]; [exists 0%nat; reflexivity|]).
  destruct n as [|n]; [exists 1%nat; reflexivity|].
  destruct n as [|n]; [exists 2%nat; reflexivity|].
  destruct n; exists 2%nat; reflexivity.
Qed.

(** C5 (amended). The statements submitted to the interpreter are always
    the same two constants, in the same order, whatever input the process
    was started with and whatever the calls answer: exactly these two in
    every run in which the library calls return, and an initial segment of
    them, never anything else, in a run cut short by a call that does not
    return. *)
Theorem two_fixed_statements (i : input) :
  (forall a b c : Z,
      run_of (entry i) (boot_trace a b c) 0
      /\ length (filter is_run (calls (boot_trace a b c))) = 2%nat
      /\ commands (calls (boot_trace a b c)) = [statement1; statement2])
  /\ (forall tr : @trace libE Z,
        is_trace (entry i) tr ->
        (exists n, commands (calls tr) = firstn n [statement1; statement2])
        /\ (forall r, trace_ret tr = Some r ->
              length (filter is_run (calls tr)) = 2%nat
              /\ commands (calls tr) = [statement1; statement2]))
  /\ (forall W (lib : os_library W) (w : W),
        (exists n, commands (issued (run_main lib i w))
                   = firstn n [statement1; statement2])
        /\ (returning lib ->
            length (filter is_run (issued (run_main lib i w))) = 2%nat
            /\ commands (issued (run_main lib i w)) = [statement1; statement2])).
Proof.
  split; [|split].
  - intros a b c. split; [apply boot_trace_run|]. split; reflexivity.
  - unfold entry. intros tr H. split.
    + destruct (main_trace_calls H) as [n ->]. apply commands_initial_segment.
    + intros r Hr. rewrite (@main_run_calls tr r (conj H Hr)).
      split; reflexivity.
  - intros W lib w. split.
    + destruct (run_main_shape lib i w) as (_ & [n ->] & _).
      apply commands_initial_segment.
    + intros R. destruct (run_main_returning i w R) as [_ ->].
      split; reflexivity.
Qed.

Lemma two_fixed_statements_witness :
  run_of (entry misconfigured_start) (boot_trace 19 (-1) 0) 0
  /\ returning (process_os None broken_python)
  /\ (exists n, commands (calls (boot_trace 19 (-1) 0))
                = firstn n [statement1; statement2])
  /\ commands (calls (boot_trace 19 (-1) 0)) = [statement1; statement2]
  /\ commands (issued (run_main (process_os None broken_python) misconfigured_start
                         (fresh FullyBuffered tt)))
     = [statement1; statement2].
Proof.
  assert (T : run_of (entry misconfigured_start) (boot_trace 19 (-1) 0) 0)
    by apply (proj1 (proj1 (two_fixed_statements misconfigured_start) 19 (-1) 0)).
  assert (R : returning (process_os None broken_python))
    by apply returning_process_os.
  split; [exact T|].
  split; [exact R|].
  split; [apply (proj1 (proj1 (proj2 (two_fixed_statements misconfigured_start))
                          (boot_trace 19 (-1) 0) (proj1 T)))|].
  split.
  - apply (proj2 (proj1 (proj2 (two_fixed_statements misconfigured_start))
                    (boot_trace 19 (-1) 0) (proj1 T)) 0).
    reflexivity.
  - apply (proj2 (proj2 (proj2 (two_fixed_statements misconfigured_start))
                    _ (process_os None broken_python) (fresh FullyBuffered tt))).
    exact R.
Defined.



(** ** Results are ignored *)

(** C4. No result is looked at: whatever [printf] and the two
    [PyRun_SimpleString] calls return ([Py_Initialize] and [Py_Finalize]
    return nothing), the same calls follow and [main] returns 0; and no run
    ends otherwise. *)
Theorem failures_not_distinguished :
  (forall a b c : Z, run_of main (boot_trace a b c) EXIT_SUCCESS)
  /\ (forall tr r, run_of main tr r ->
        r = EXIT_SUCCESS /\ exists a b c, tr = boot_trace a b c).
Proof.
  split; [apply boot_trace_run|].
  intros tr r H. apply main_complete_trace in H.
  destruct H as (a & b & c & -> & ->). split; [reflexivity|].
  exists a, b, c. reflexivity.
Qed.

Lemma failures_not_distinguished_witness :
  run_of main (boot_trace (-1) (-1) (-1)) 0
  /\ 0 = EXIT_SUCCESS
  /\ exists a b c, boot_trace (-1) (-1) (-1) = boot_trace a b c.
Proof.
  split; [apply (proj1 failures_not_distinguished)|].
  apply (proj2 failures_not_distinguished (boot_trace (-1) (-1) (-1)) 0).
  apply (proj1 failures_not_distinguished).
Defined.

(** ** Determinism and independence of input *)

(** C6. With the library calls read as the same functions, two runs issue
    the same calls with the same arguments and return the same exit code,
    whatever state each run starts from. *)
Theorem main_deterministic {W} (lib : library W) (w1 w2 : W) :
  exists (cs : list call) (code : Z) (w1' w2' : W),
    interp_state (as_handler (recording lib)) main ([], w1) ≈ Ret ((cs, w1'), code)
    /\ interp_state (as_handler (recording lib)) main ([], w2) ≈ Ret ((cs, w2'), code).
Proof.
  exists boot_sequence, 0.
  exists (feed lib boot_sequence w1), (feed lib boot_sequence w2).
  split; apply main_recorded.
Qed.

(** C10, as stated, fails once the libraries are allowed to read the input
    themselves: the runtime's start-up looks at the environment, and with
    [PYTHONHOME] pointing nowhere it ends the process with status 1 after
    two calls, where the plain start goes through five calls and returns 0. *)
Lemma calls_and_status_depend_on_environment :
  ~ (forall i1 i2 : input,
        issued (run_main (environment_sensitive i1) i1 (fresh LineBuffered Uninitialized))
        = issued (run_main (environment_sensitive i2) i2 (fresh LineBuffered Uninitialized))
        /\ how (run_main (environment_sensitive i1) i1 (fresh LineBuffered Uninitialized))
           = how (run_main (environment_sensitive i2) i2 (fresh LineBuffered Uninitialized))).
Proof.
  intros H. destruct (H plain_start misconfigured_start) as [_ E].
  vm_compute in E. discriminate E.
Qed.

(** C10 (amended). [main] has no parameters and itself reads nothing of the
    input.  For any two inputs, and libraries that may behave differently on
    each, both runs issue initial segments of one and the same sequence of
    calls, so they agree for as long as both go on; and when in both runs
    the library calls return, the calls are identical and both exit codes
    are 0. *)
Theorem input_independent {W} (env : input -> os_library W) (start : input -> W)
  (i1 i2 : input) :
  (exists n1 n2,
      issued (run_main (env i1) i1 (start i1)) = firstn n1 boot_sequence
      /\ issued (run_main (env i2) i2 (start i2)) = firstn n2 boot_sequence)
  /\ (returning (env i1) -> returning (env i2) ->
      issued (run_main (env i1) i1 (start i1)) = issued (run_main (env i2) i2 (start i2))
      /\ how (run_main (env i1) i1 (start i1)) = Returned EXIT_SUCCESS
      /\ how (run_main (env i2) i2 (start i2)) = Returned EXIT_SUCCESS).
Proof.
  split.
  - destruct (run_main_shape (env i1) i1 (start i1)) as (_ & [n1 E1] & _).
    destruct (run_main_shape (env i2) i2 (start i2)) as (_ & [n2 E2] & _).
    exists n1, n2. split; assumption.
  - intros R1 R2.
    destruct (run_main_returning i1 (start i1) R1) as [H1 C1].
    destruct (run_main_returning i2 (start i2) R2) as [H2 C2].
    rewrite C1, C2. repeat split; assumption.
Qed.

Lemma input_independent_witness :
  returning (process_os None (reference_python "3.12.0"))
  /\ issued (run_main (process_os None (reference_python "3.12.0")) plain_start
               (fresh LineBuffered Uninitialized))
     = issued (run_main (process_os None (reference_python "3.12.0")) misconfigured_start
                 (fresh FullyBuffered Finalized))
  /\ how (run_main (process_os None (reference_python "3.12.0")) plain_start
            (fresh LineBuffered Uninitialized)) = Returned EXIT_SUCCESS
  /\ how (run_main (process_os None (reference_python "3.12.0")) misconfigured_start
            (fresh FullyBuffered Finalized)) = Returned EXIT_SUCCESS.
Proof.
  split; [apply returning_process_os|].
  pose (env := fun _ : input => process_os None (reference_python "3.12.0")).
  pose (start := fun i : input =>
                   match environ i with
                   | [] => fresh LineBuffered Uninitialized
                   | _ :: _ => fresh FullyBuffered Finalized
                   end).
  apply (proj2 (input_independent env start plain_start misconfigured_start)
           (returning_process_os _) (returning_process_os _)).
Defined.

(** ** Termination *)

(** C7. [main] is a straight line: it has no infinite branch, and provided
    each of its library calls returns it reaches [return 0]. *)
Theorem main_terminates {W} (h : libE ~> stateT W (itree void1)) :
  (forall X (e : libE X), In (call_of e) boot_sequence ->
     forall w, returns (h X e w)) ->
  all_finite main
  /\ forall w, exists w', interp_state h main w ≈ Ret (w', EXIT_SUCCESS).
Proof.
  intros H. split; [apply main_all_finite | apply main_returns_under, H].
Qed.

Lemma main_terminates_witness :
  (forall X (e : libE X), In (call_of e) boot_sequence ->
     forall w, returns (as_handler (process_library broken_python) e w))
  /\ all_finite main
  /\ forall w, exists w',
       interp_state (as_handler (process_library broken_python)) main w
       ≈ Ret (w', EXIT_SUCCESS).
Proof.
  split.
  - intros X e _ w. apply as_handler_returns.
  - apply (@main_terminates _ (as_handler (process_library broken_python))).
    intros X e _ w. apply as_handler_returns.
Defined.

(* ===================================================================== *)
(** * 7. Further properties of [main] *)
(* ===================================================================== *)

(** One call of [main] followed by the rest of the program returns exactly
    when the call comes back and the rest returns from the state it left. *)
Lemma call_then_inv {W X R} (h : libE ~> stateT W (itree void1))
  (e : libE X) (k : itree libE R) (w : W) (res : W * R) :
  interp_state h (ITree.trigger e ;; k) w ≈ Ret res <->
  exists w1 x, h _ e w ≈ Ret (w1, x) /\ interp_state h k w1 ≈ Ret res.
Proof.
  rewrite interp_state_bind. split.
  - intros H. apply eutt_inv_bind_ret in H. destruct H as ([w1 x] & H1 & H2).
    rewrite interp_state_trigger in H1. exists w1, x. split; assumption.
  - intros (w1 & x & H1 & H2).
    rewrite interp_state_trigger, H1, bind_ret_l. exact H2.
Qed.

(** X1. Under any library, calls of which may hang, [main] returns exactly
    when its five calls, each made from the state the previous one left,
    all come back; the exit code is then 0 and the final state is the one
    left by [Py_Finalize].  There is no early exit and no way round a call
    that hangs. *)
Theorem main_returns_iff {W} (h : libE ~> stateT W (itree void1))
  (w w' : W) (r : Z) :
  interp_state h main w ≈ Ret (w', r)
  <-> reaches h boot_sequence w w' /\ r = EXIT_SUCCESS.
Proof.
  unfold main, boot_sequence, reaches, answered, EXIT_SUCCESS.
  split.
  - intros H.
    apply call_then_inv in H. destruct H as (w1 & a & E1 & H).
    apply call_then_inv in H. destruct H as (w2 & [] & E2 & H).
    apply call_then_inv in H. destruct H as (w3 & b & E3 & H).
    apply call_then_inv in H. destruct H as (w4 & c & E4 & H).
    apply call_then_inv in H. destruct H as (w5 & [] & E5 & H).
    rewrite interp_state_ret in H. apply eutt_inv_Ret in H.
    injection H as <- <-.
    split; [|reflexivity].
    exists w1. split; [exists a; exact E1|].
    exists w2. split; [exact E2|].
    exists w3. split; [exists b; exact E3|].
    exists w4. split; [exists c; exact E4|].
    exists w5. split; [exact E5 | reflexivity].
  - intros [(w1 & (a & E1) & w2 & E2 & w3 & (b & E3) & w4 & (c & E4) & w5 & E5 & ->) ->].
    apply call_then_inv. exists w1, a. split; [exact E1|].
    apply call_then_inv. exists w2, tt. split; [exact E2|].
    apply call_then_inv. exists w3, b. split; [exact E3|].
    apply call_then_inv. exists w4, c. split; [exact E4|].
    apply call_then_inv. exists w5, tt. split; [exact E5|].
    rewrite interp_state_ret. reflexivity.
Qed.

(** A library of plain functions always comes back. *)
Lemma reaches_as_handler {W} (lib : library W) (cs : list call) (w : W) :
  reaches (as_handler lib) cs w (feed lib cs w).
Proof.
  revert w. induction cs as [|c cs IH]; intros w; [reflexivity|].
  exists (after lib c w). split; [|apply IH].
  destruct c; cbn; unfold as_handler.
  - eexists. rewrite <- surjective_pairing. reflexivity.
  - destruct (lib unit (inr1 Py_Initialize) w) as [w1 []]. reflexivity.
  - eexists. rewrite <- surjective_pairing. reflexivity.
  - destruct (lib unit (inr1 Py_Finalize) w) as [w1 []]. reflexivity.
Qed.

Lemma main_returns_iff_witness :
  (reaches (as_handler (process_library broken_python)) boot_sequence
     (initial_world tt)
     (feed (process_library broken_python) boot_sequence (initial_world tt))
   /\ 0 = EXIT_SUCCESS)
  /\ interp_state (as_handler (process_library broken_python)) main (initial_world tt)
     ≈ Ret (feed (process_library broken_python) boot_sequence (initial_world tt), 0).
Proof.
  assert (R : reaches (as_handler (process_library broken_python)) boot_sequence
                (initial_world tt)
                (feed (process_library broken_python) boot_sequence (initial_world tt))
              /\ 0 = EXIT_SUCCESS)
    by (split; [apply reaches_as_handler | reflexivity]).
  split; [exact R|].
  apply (proj2 (main_returns_iff (as_handler (process_library broken_python))
                  (initial_world tt) _ 0)).
  exact R.
Defined.
